(** * A shallow embedding of [app/app.py]

    The program is a Flask application with one route, [/], bound to the
    view [todo_list], and one piece of state, the module-level list
    [tasks].  The embedding threads that list explicitly through the view
    and keeps the page generator [get_html_template] a function of its
    argument, as it is in the source. *)

From Stdlib Require Import List Arith NArith Bool Lia.
From Stdlib Require Import Strings.String Strings.Ascii.
From Stdlib Require Import Numbers.DecimalString Numbers.DecimalPos Numbers.DecimalN.
Import ListNotations.

Local Open Scope string_scope.
Local Open Scope N_scope.
Local Open Scope list_scope.

(* ================================================================== *)
(** ** Python strings *)

Module PyStr.

(** A Python [str] is a sequence of Unicode code points. *)
Definition codepoint := N.
Definition str := list codepoint.

(** The code points of a Rocq string literal, byte for byte. *)
Definition of_string (s : string) : str :=
  map N_of_ascii (list_ascii_of_string s).

(** The literals of the source are written below with a backquote (U+0060,
    which the source never uses) standing for the double quote (U+0022);
    [text] puts the double quote back. *)
Definition unquote (c : codepoint) : codepoint :=
  if c =? 0x60 then 0x22 else c.

Definition text (s : string) : str := map unquote (of_string s).

Definition newline : str := [0x0A].

(** [join_lines [l1; ...; ln]] is [l1 + "\n" + ... + "\n" + ln]: the lines of
    a triple-quoted literal, as they stand in the source file. *)
Fixpoint join_lines (ls : list string) : str :=
  match ls with
  | [] => []
  | [l] => text l
  | l :: rest => text l ++ newline ++ join_lines rest
  end.

Fixpoint eqb (s t : str) : bool :=
  match s, t with
  | [], [] => true
  | c :: s', d :: t' => (c =? d) && eqb s' t'
  | _, _ => false
  end.

(** [str.isspace] on one character, CPython's [_PyUnicode_IsWhitespace]. *)
Definition isspace (c : codepoint) : bool :=
  ((0x09 <=? c) && (c <=? 0x0D))
  || ((0x1C <=? c) && (c <=? 0x20))
  || (c =? 0x85) || (c =? 0xA0) || (c =? 0x1680)
  || ((0x2000 <=? c) && (c <=? 0x200A))
  || (c =? 0x2028) || (c =? 0x2029) || (c =? 0x202F)
  || (c =? 0x205F) || (c =? 0x3000).

Fixpoint dropwhile (p : codepoint -> bool) (s : str) : str :=
  match s with
  | [] => []
  | c :: s' => if p c then dropwhile p s' else s
  end.

Definition lstrip (s : str) : str := dropwhile isspace s.
Definition rstrip (s : str) : str := rev (dropwhile isspace (rev s)).

(** [s.strip()] with no argument: the whitespace at both ends goes. *)
Definition strip (s : str) : str := rstrip (lstrip s).

(** Truth value of a [str]: false exactly for the empty string. *)
Definition truthy (s : str) : bool :=
  match s with [] => false | _ :: _ => true end.

(** [str(n)] of a non-negative [int], which is what [{i+1}] formats to. *)
Definition format_int (n : N) : str :=
  of_string (NilZero.string_of_uint (N.to_uint n)).

End PyStr.

Import PyStr.

(* ================================================================== *)
(** ** The parts of Flask the view uses *)

Module Flask.

(** [request.form] is a multi-dict: the decoded fields in the order they
    were sent, a name possibly more than once. *)
Definition MultiDict := list (str * str).

(** [d.get(key)]: the first value sent under [key], [None] without one. *)
Fixpoint get (d : MultiDict) (key : str) : option str :=
  match d with
  | [] => None
  | (k, v) :: d' => if PyStr.eqb k key then Some v else get d' key
  end.

Record Request := mkRequest {
  method : str;
  form : MultiDict
}.

(** What a view gives back: a [str], which Flask sends as a 200 HTML page,
    or the response built by [redirect]. *)
Inductive Response :=
| Page (body : str)
| Redirect (code : N) (location : str).

(** [redirect(location)]: the status code defaults to 302. *)
Definition redirect (location : str) : Response := Redirect 302 location.

(** A rule of the URL map, as [@app.route(rule, methods=...)] registers it
    under the name of the decorated function. *)
Record Rule := mkRule {
  endpoint : str;
  path : str;
  methods : list str
}.

(** [url_for(endpoint)]: the path of the first rule registered for it;
    [None] stands for the [BuildError] raised when there is none. *)
Fixpoint url_for (url_map : list Rule) (name : str) : option str :=
  match url_map with
  | [] => None
  | r :: rest => if PyStr.eqb (endpoint r) name then Some (path r)
                 else url_for rest name
  end.

End Flask.

Import Flask.

(* ================================================================== *)
(** ** app.py *)

(** [tasks = [...]], the value the module-level list has once the module
    is loaded. *)
Definition tasks : list str :=
  [ text "Learn Docker"; text "Build a Web App"; text "Containerize the App" ].

(** The literal text of the page around [{task_items}]. *)
Definition page_head : str :=
  join_lines
    [ EmptyString;
      "<!DOCTYPE html>";
      "<html lang=`en`>";
      "<head>";
      "    <meta charset=`UTF-8`>";
      "    <meta name=`viewport` content=`width=device-width, initial-scale=1.0`>";
      "    <title>Simple Containerized To-Do App</title>";
      "    <!-- Load Tailwind CSS -->";
      "    <script src=`https://cdn.tailwindcss.com`></script>";
      "    <style>";
      "        body {";
      "            font-family: 'Inter', sans-serif;";
      "            background-color: #f3f4f6;";
      "        }";
      "    </style>";
      "</head>";
      "<body class=`p-8`>";
      "    <div class=`max-w-xl mx-auto bg-white p-8 rounded-xl shadow-2xl`>";
      "        <h1 class=`text-4xl font-bold text-center mb-6 text-indigo-700`>Containerized To-Do List</h1>";
      "        <p class=`text-center text-gray-500 mb-8`>A slightly more functional Flask app ready for Docker!</p>";
      EmptyString;
      "        <!-- Task Input Form -->";
      "        <form method=`POST` class=`flex space-x-4 mb-10 p-4 border border-indigo-200 rounded-xl bg-indigo-50 shadow-inner`>";
      "            <input";
      "                type=`text`";
      "                name=`new_task`";
      "                placeholder=`What needs to be done?`";
      "                required";
      "                class=`flex-grow p-3 border border-gray-300 rounded-lg focus:outline-none focus:ring-2 focus:ring-indigo-500`";
      "            >";
      "            <button";
      "                type=`submit`";
      "                class=`bg-indigo-600 hover:bg-indigo-700 text-white font-semibold py-3 px-6 rounded-lg shadow-md transition duration-300 ease-in-out transform hover:scale-105`";
      "            >";
      "                Add Task";
      "            </button>";
      "        </form>";
      EmptyString;
      "        <!-- Task List Display -->";
      "        <ul id=`task-list` class=`space-y-3`>";
      "            " ].

Definition page_tail : str :=
  join_lines
    [ EmptyString;
      "        </ul>";
      "    </div>";
      "</body>";
      "</html>";
      EmptyString ].

(** The literal text of one list entry, before [{i+1}] and after [{task}]. *)
Definition li_head : str :=
  join_lines
    [ EmptyString;
      "            <li class=`flex items-center justify-between bg-white p-3 rounded-lg shadow mb-2 transition duration-150 ease-in-out hover:bg-gray-50`>";
      "                <span class=`text-gray-800 text-lg font-medium`>" ].

Definition li_tail : str :=
  join_lines
    [ "</span>";
      "                <span class=`text-sm text-gray-400`>Added locally</span>";
      "            </li>";
      "            " ].

(** The f-string of the loop body, for the pair [(i, task)]. *)
Definition li_item (i : N) (task : str) : str :=
  li_head ++ format_int (i + 1) ++ text ". " ++ task ++ li_tail.

Definition no_tasks_yet : str :=
  text "<li class=`text-center py-8 text-gray-500 italic`>No tasks yet! Add one above.</li>".

(** [enumerate(l)]: the items paired with their indices, from 0. *)
Fixpoint enumerate_from {A : Type} (start : N) (l : list A) : list (N * A) :=
  match l with
  | [] => []
  | x :: l' => (start, x) :: enumerate_from (start + 1) l'
  end.

Definition enumerate {A : Type} (l : list A) : list (N * A) :=
  enumerate_from 0 l.

(** [def get_html_template(tasks_list)].  The [for] loop is the left fold
    that extends [task_items], which starts empty, by one entry a turn. *)
Definition get_html_template (tasks_list : list str) : str :=
  let task_items :=
    match tasks_list with
    | _ :: _ =>
        fold_left (fun task_items it => task_items ++ li_item (fst it) (snd it))
                  (enumerate tasks_list) []
    | [] => no_tasks_yet
    end in
  page_head ++ task_items ++ page_tail.

(** The one rule of the application: [@app.route('/', methods=['GET',
    'POST'])] on [todo_list]. *)
Definition url_map : list Rule :=
  [ mkRule (text "todo_list") (text "/") [text "GET"; text "POST"] ].

(** [def todo_list()].  The view reads the request and the global [tasks];
    here it takes both and returns, with its response, the list as the call
    leaves it.  A response of [None] is the exception of [url_for]. *)
Definition todo_list (request : Request) (store : list str)
  : option Response * list str :=
  if PyStr.eqb (method request) (text "POST") then
    let new_task := get (form request) (text "new_task") in
    let store' :=
      match new_task with
      | Some v => if truthy v then store ++ [strip v] else store
      | None => store
      end in
    (option_map redirect (url_for url_map (text "todo_list")), store')
  else
    (Some (Page (get_html_template store)), store).

(** The list after the application has handled [requests] one after the
    other, starting from [store]. *)
Fixpoint serve (requests : list Request) (store : list str) : list str :=
  match requests with
  | [] => store
  | r :: rest => serve rest (snd (todo_list r store))
  end.

(* ================================================================== *)
(** ** Vocabulary of the specification *)

(** A submit request carrying [v] in its field [new_task], and a retrieve
    request. *)
Definition post_request (v : str) : Request :=
  mkRequest (text "POST") [(text "new_task", v)].

Definition get_request : Request := mkRequest (text "GET") [].

(** [submits v r]: [r] is a submit request whose [new_task] field reads [v]. *)
Definition submits (v : str) (r : Request) : Prop :=
  method r = text "POST" /\ get (form r) (text "new_task") = Some v.

(** A string neither begins nor ends with whitespace. *)
Definition starts_with_space (s : str) : bool :=
  match s with
  | c :: _ => isspace c
  | [] => false
  end.

Definition trimmed (s : str) : bool :=
  negb (starts_with_space s) && negb (starts_with_space (rev s)).

(** [x] is [s] without its leading and trailing whitespace. *)
Definition trim_of (s x : str) : Prop :=
  (exists pre post,
      s = pre ++ x ++ post /\
      forallb isspace pre = true /\ forallb isspace post = true)
  /\ trimmed x = true.

(** One list entry showing [n. item], and the entries of [items] numbered
    by position, the first one 1. *)
Definition numbered_entry (n : N) (item : str) : str :=
  li_head ++ format_int n ++ text ". " ++ item ++ li_tail.

Definition numbered_entries (items : list str) : str :=
  List.concat (map (fun k => numbered_entry (N.of_nat (k + 1)) (nth k items []))
              (seq 0 (List.length items))).

(** Reading a [str] back as a Rocq string, and a decimal numeral back as a
    number. *)
Definition to_string (s : str) : string :=
  string_of_list_ascii (map ascii_of_N s).

Definition parse_int (s : str) : option N :=
  option_map N.of_uint (NilZero.uint_of_string (to_string s)).

(** The states of the store the running application can be in. *)
Inductive reachable : list str -> Prop :=
| reachable_start : reachable tasks
| reachable_step : forall r store,
    reachable store -> reachable (snd (todo_list r store)).

(** The value the view reads from a request, the empty string standing in
    for a field that is not there; and whether the view appends for it. *)
Definition field (r : Request) : str :=
  match get (form r) (text "new_task") with
  | Some v => v
  | None => []
  end.

Definition accepted (r : Request) : bool :=
  PyStr.eqb (method r) (text "POST") && truthy (field r).

(** [t] stands in [page] as it is, character for character. *)
Definition occurs_in (t page : str) : Prop :=
  exists a b, page = a ++ t ++ b.

(* ================================================================== *)
(** ** Strings *)

Section StrFacts.

Lemma eqb_eq (s t : str) : PyStr.eqb s t = true <-> s = t.
Proof.
  revert t; induction s as [|c s IH]; intros [|d t]; simpl;
    try (split; [discriminate | discriminate]); try tauto.
  rewrite andb_true_iff, N.eqb_eq, IH.
  split; [intros [-> ->]; reflexivity | intros E; injection E; auto].
Qed.

Lemma eqb_refl (s : str) : PyStr.eqb s s = true.
Proof. apply eqb_eq; reflexivity. Qed.

Lemma eqb_neq (s t : str) : PyStr.eqb s t = false <-> s <> t.
Proof.
  destruct (PyStr.eqb s t) eqn:E.
  - apply eqb_eq in E. split; [discriminate | contradiction].
  - split; [intros _ H | reflexivity].
    apply eqb_eq in H. congruence.
Qed.

Lemma truthy_false (s : str) : truthy s = false <-> s = [].
Proof. destruct s; simpl; split; congruence. Qed.

Lemma to_string_of_string (s : string) : to_string (of_string s) = s.
Proof.
  unfold to_string, of_string.
  rewrite map_map.
  rewrite (map_ext _ (fun a => a)) by apply ascii_N_embedding.
  rewrite map_id. apply string_of_list_ascii_of_string.
Qed.

(** The numeral [format_int] writes reads back as the number. *)
Lemma parse_format_int (n : N) : parse_int (format_int n) = Some n.
Proof.
  unfold parse_int, format_int.
  rewrite to_string_of_string, NilZero.usu.
  - simpl. now rewrite DecimalN.Unsigned.of_to.
  - destruct n as [|q]; simpl; [discriminate|].
    apply DecimalPos.Unsigned.to_uint_nonnil.
Qed.

Variable p : codepoint -> bool.

Lemma dropwhile_split (s : str) :
  exists pre, s = pre ++ dropwhile p s /\ forallb p pre = true.
Proof.
  induction s as [|c s [pre [E F]]]; simpl.
  - exists []; auto.
  - destruct (p c) eqn:Pc.
    + exists (c :: pre); simpl. rewrite Pc, F, <- E. auto.
    + exists []; auto.
Qed.

Lemma dropwhile_hd (s : str) (c : codepoint) :
  hd_error (dropwhile p s) = Some c -> p c = false.
Proof.
  induction s as [|d s IH]; simpl; [discriminate|].
  destruct (p d) eqn:Pd; [exact IH|].
  simpl. intros E; injection E as <-. exact Pd.
Qed.

Lemma dropwhile_all (s : str) : forallb p s = true -> dropwhile p s = [].
Proof.
  induction s as [|c s IH]; simpl; [reflexivity|].
  destruct (p c); simpl; [exact IH | discriminate].
Qed.

Lemma dropwhile_nil (s : str) : dropwhile p s = [] -> forallb p s = true.
Proof.
  induction s as [|c s IH]; simpl; [reflexivity|].
  destruct (p c); simpl; [exact IH | discriminate].
Qed.

Lemma forallb_rev (s : str) : forallb p (rev s) = forallb p s.
Proof.
  induction s as [|c s IH]; simpl; [reflexivity|].
  rewrite forallb_app, IH. simpl. rewrite andb_true_r. apply andb_comm.
Qed.

Lemma dropwhile_app_all (pre s : str) :
  forallb p pre = true -> dropwhile p (pre ++ s) = dropwhile p s.
Proof.
  induction pre as [|c pre IH]; simpl; [reflexivity|].
  destruct (p c); simpl; [exact IH | discriminate].
Qed.

End StrFacts.

(** ** [strip] *)

Lemma strip_split (s : str) :
  exists pre post,
    s = pre ++ strip s ++ post /\
    forallb isspace pre = true /\ forallb isspace post = true.
Proof.
  unfold strip, rstrip, lstrip.
  destruct (dropwhile_split isspace s) as [pre [E F]].
  destruct (dropwhile_split isspace (rev (dropwhile isspace s)))
    as [tl [E' F']].
  exists pre, (rev tl). repeat split; [|exact F|now rewrite forallb_rev].
  rewrite <- rev_app_distr, <- E', rev_involutive. exact E.
Qed.

Lemma strip_trimmed (s : str) : trimmed (strip s) = true.
Proof.
  unfold trimmed. apply andb_true_iff; split; apply negb_true_iff.
  - destruct (strip s) as [|c r] eqn:E; [reflexivity|]. simpl.
    unfold strip, rstrip in E.
    destruct (dropwhile_split isspace (rev (lstrip s))) as [tl [E' _]].
    apply (f_equal (@rev codepoint)) in E'.
    rewrite rev_involutive, rev_app_distr, E in E'.
    apply (dropwhile_hd isspace s). fold (lstrip s). now rewrite E'.
  - unfold strip, rstrip. rewrite rev_involutive.
    destruct (dropwhile isspace (rev (lstrip s))) as [|c r] eqn:E;
      [reflexivity|]. simpl.
    apply (dropwhile_hd isspace (rev (lstrip s))). now rewrite E.
Qed.

Lemma strip_trim_of (s : str) : trim_of s (strip s).
Proof. split; [apply strip_split | apply strip_trimmed]. Qed.

(** [strip s] is the only string that is [s] without the whitespace at its
    ends. *)
Lemma trim_of_strip (s x : str) : trim_of s x -> x = strip s.
Proof.
  intros [[pre [post [-> [F G]]]] T].
  unfold strip, rstrip, lstrip. rewrite (dropwhile_app_all _ _ _ F).
  destruct x as [|c x].
  - simpl. now rewrite (dropwhile_all _ _ G).
  - unfold trimmed in T. apply andb_true_iff in T. destruct T as [T1 T2].
    apply negb_true_iff in T1, T2. simpl in T1.
    change (dropwhile isspace ((c :: x) ++ post)) with
      (if isspace c then dropwhile isspace (x ++ post) else (c :: x) ++ post).
    rewrite T1, rev_app_distr, dropwhile_app_all
      by now rewrite forallb_rev.
    destruct (rev (c :: x)) as [|d y] eqn:E.
    + apply (f_equal (@rev codepoint)) in E.
      now rewrite rev_involutive in E.
    + simpl in T2. simpl. rewrite T2, <- E. now rewrite rev_involutive.
Qed.

(** Whitespace alone strips to the empty string, and only whitespace does. *)
Lemma strip_blank (s : str) : strip s = [] <-> forallb isspace s = true.
Proof.
  split.
  - intros E. destruct (strip_split s) as [pre [post [S [F G]]]].
    rewrite E in S. rewrite S, forallb_app, F. exact G.
  - intros F. unfold strip, lstrip. now rewrite (dropwhile_all _ _ F).
Qed.

(* ================================================================== *)
(** ** The view, branch by branch *)

Lemma url_for_todo_list : url_for url_map (text "todo_list") = Some (text "/").
Proof. reflexivity. Qed.

Lemma GET_is_not_POST : PyStr.eqb (text "GET") (text "POST") = false.
Proof. reflexivity. Qed.

Lemma todo_list_POST (r : Request) (store : list str) :
  method r = text "POST" ->
  todo_list r store =
    (Some (Redirect 302 (text "/")),
     match get (form r) (text "new_task") with
     | Some v => if truthy v then store ++ [strip v] else store
     | None => store
     end).
Proof.
  intros M. unfold todo_list.
  rewrite M, eqb_refl, url_for_todo_list. reflexivity.
Qed.

Lemma todo_list_other (r : Request) (store : list str) :
  method r <> text "POST" ->
  todo_list r store = (Some (Page (get_html_template store)), store).
Proof.
  intros M. unfold todo_list.
  apply eqb_neq in M. now rewrite M.
Qed.

Lemma todo_list_GET (r : Request) (store : list str) :
  method r = text "GET" ->
  todo_list r store = (Some (Page (get_html_template store)), store).
Proof.
  intros M. apply todo_list_other.
  rewrite M. apply eqb_neq, GET_is_not_POST.
Qed.

(** A call of the view leaves the list as it was or one item longer. *)
Lemma todo_list_store (r : Request) (store : list str) :
  snd (todo_list r store) = store \/
  exists v, truthy v = true /\ snd (todo_list r store) = store ++ [strip v].
Proof.
  unfold todo_list.
  destruct (PyStr.eqb (method r) (text "POST")); [|now left].
  destruct (get (form r) (text "new_task")) as [v|]; [|now left].
  destruct (truthy v) eqn:T; [right; exists v; auto | now left].
Qed.

(** A submit whose field passes the test of the view stores it stripped. *)
Lemma submit_truthy (r : Request) (store : list str) (v : str) :
  submits v r -> v <> [] ->
  snd (todo_list r store) = store ++ [strip v].
Proof.
  intros [M G] NE. rewrite (todo_list_POST _ _ M), G. simpl.
  destruct v; [contradiction | reflexivity].
Qed.

(** A submit whose field is not empty but all whitespace stores the empty
    string: the test of the view comes before [strip]. *)
Lemma submit_blank (r : Request) (store : list str) (v : str) :
  submits v r -> v <> [] -> forallb isspace v = true ->
  snd (todo_list r store) = store ++ [[]].
Proof.
  intros S NE B. rewrite (submit_truthy r store v S NE).
  now rewrite (proj2 (strip_blank v) B).
Qed.

(** A submit without the field, or with an empty one, stores nothing. *)
Lemma submit_absent_or_empty (r : Request) (store : list str) :
  method r = text "POST" ->
  get (form r) (text "new_task") = None \/
  get (form r) (text "new_task") = Some [] ->
  snd (todo_list r store) = store.
Proof.
  intros M [G|G]; rewrite (todo_list_POST _ _ M), G; reflexivity.
Qed.

(** ** Sequences of requests *)

Lemma serve_app (rs1 rs2 : list Request) (store : list str) :
  serve (rs1 ++ rs2) store = serve rs2 (serve rs1 store).
Proof.
  revert store; induction rs1 as [|r rs1 IH]; intros store; simpl; auto.
Qed.

Lemma reachable_serve (rs : list Request) (store : list str) :
  reachable store -> reachable (serve rs store).
Proof.
  revert store; induction rs as [|r rs IH]; intros store R; [exact R|].
  apply (IH (snd (todo_list r store))). now constructor.
Qed.

Lemma reachable_inv (store : list str) :
  reachable store -> exists rs, store = serve rs tasks.
Proof.
  induction 1 as [|r store _ [rs ->]].
  - now exists [].
  - exists (rs ++ [r]). now rewrite serve_app.
Qed.

(** The list only ever grows at its end. *)
Lemma serve_extends (rs : list Request) (store : list str) :
  exists added, serve rs store = store ++ added /\
                Forall (fun x => trimmed x = true) added.
Proof.
  revert store; induction rs as [|r rs IH]; intros store.
  - exists []. simpl. now rewrite app_nil_r.
  - change (serve (r :: rs) store) with (serve rs (snd (todo_list r store))).
    destruct (IH (snd (todo_list r store))) as [added [E F]]. rewrite E.
    destruct (todo_list_store r store) as [S|[v [_ S]]]; rewrite S.
    + now exists added.
    + exists (strip v :: added). rewrite <- app_assoc. split; [reflexivity|].
      constructor; [apply strip_trimmed | exact F].
Qed.


(** ** The page *)

(** The loop of [get_html_template], started at index [start] with
    [task_items] holding [acc], adds the entries numbered from [start + 1]. *)
Lemma loop_numbered (l : list str) (start : N) (acc : str) :
  fold_left (fun task_items it => task_items ++ li_item (fst it) (snd it))
            (enumerate_from start l) acc
  = acc ++ List.concat
             (map (fun k => numbered_entry (start + N.of_nat (k + 1)) (nth k l []))
                  (seq 0 (List.length l))).
Proof.
  revert start acc; induction l as [|x l IH]; intros start acc;
    cbn [enumerate_from fold_left List.length seq map List.concat fst snd].
  - now rewrite app_nil_r.
  - rewrite IH, <- app_assoc. apply (f_equal (app acc)). apply f_equal2.
    + unfold li_item, numbered_entry. cbn [nth].
      replace (start + N.of_nat (0 + 1)) with (start + 1) by lia.
      reflexivity.
    + apply f_equal. rewrite <- seq_shift, map_map. apply map_ext. intros k.
      cbn [nth].
      replace (start + 1 + N.of_nat (k + 1)) with (start + N.of_nat (S k + 1))
        by lia.
      reflexivity.
Qed.

Lemma get_html_template_nonempty (l : list str) :
  l <> [] ->
  get_html_template l = page_head ++ numbered_entries l ++ page_tail.
Proof.
  intros NE. unfold get_html_template, numbered_entries.
  destruct l as [|x l]; [contradiction|].
  change (enumerate (x :: l)) with (enumerate_from 0 (x :: l)).
  rewrite loop_numbered. reflexivity.
Qed.

Lemma get_html_template_empty :
  get_html_template [] = page_head ++ no_tasks_yet ++ page_tail.
Proof. reflexivity. Qed.

(* ================================================================== *)
(** ** The properties of the specification *)

(** The scenario of the specification: the fourth entry, after the field
    [Write tests] followed by two spaces was submitted, reads
    [4. Write tests]. *)
Example fourth_entry_label :
  to_string (format_int (3 + 1) ++ text ". " ++ strip (text "Write tests  "))
  = "4. Write tests".
Proof. reflexivity. Qed.

(** C1, at the input where the code departs from it: a submit whose
    [new_task] is one space, which is empty after trimming, does not leave
    the list unchanged; the view tests the field before it strips it, and
    appends the empty string. *)
Theorem C1_whitespace_only_submit_is_stored :
  submits (text " ") (post_request (text " ")) /\
  strip (text " ") = [] /\
  snd (todo_list (post_request (text " ")) tasks) = tasks ++ [[]] /\
  snd (todo_list (post_request (text " ")) tasks) <> tasks.
Proof.
  repeat split; try reflexivity.
  intros E. apply (f_equal (@List.length str)) in E. discriminate E.
Qed.



(** C3: a submitted value that is non-empty after trimming is stored as that
    value without its leading and trailing whitespace; and in every state
    the application reaches, the list is the seed items followed by items
    that neither begin nor end with whitespace. *)
Theorem C3_submitted_value_is_stored_trimmed :
  (forall (r : Request) (store : list str) (v : str),
      submits v r ->
      strip v <> [] ->
      snd (todo_list r store) = store ++ [strip v] /\ trim_of v (strip v))
  /\
  (forall store : list str,
      reachable store ->
      exists added,
        store = tasks ++ added /\ Forall (fun x => trimmed x = true) added).
Proof.
  split.
  - intros r store v S NE. split; [|apply strip_trim_of].
    apply submit_truthy; [exact S|]. intros ->. now apply NE.
  - intros store R. destruct (reachable_inv store R) as [rs ->].
    apply serve_extends.
Qed.

Lemma C3_submitted_value_is_stored_trimmed_witness :
  snd (todo_list (post_request (text "  Write tests  ")) tasks)
  = tasks ++ [text "Write tests"]
  /\ trim_of (text "  Write tests  ") (text "Write tests").
Proof.
  apply (proj1 C3_submitted_value_is_stored_trimmed
           (post_request (text "  Write tests  ")) tasks
           (text "  Write tests  ")).
  - split; reflexivity.
  - vm_compute; discriminate.
Defined.

(** C4: whatever its [new_task] field, a submit is answered with a redirect,
    of status 302, to the path of the route that serves the retrieve, and
    never with a page. *)
Theorem C4_submit_answers_with_redirect :
  forall (r : Request) (store : list str),
    method r = text "POST" ->
    fst (todo_list r store) = Some (Redirect 302 (text "/")) /\
    (exists rule, In rule url_map /\ path rule = text "/" /\
                  In (text "GET") (methods rule)) /\
    (forall body, fst (todo_list r store) <> Some (Page body)).
Proof.
  intros r store M. rewrite (todo_list_POST _ _ M). cbn [fst].
  repeat split.
  - exists (mkRule (text "todo_list") (text "/") [text "GET"; text "POST"]).
    repeat split; left; reflexivity.
  - discriminate.
Qed.

Lemma C4_submit_answers_with_redirect_witness :
  fst (todo_list (mkRequest (text "POST") []) tasks)
  = Some (Redirect 302 (text "/")) /\
  (exists rule, In rule url_map /\ path rule = text "/" /\
                In (text "GET") (methods rule)) /\
  (forall body,
      fst (todo_list (mkRequest (text "POST") []) tasks) <> Some (Page body)).
Proof.
  apply (C4_submit_answers_with_redirect (mkRequest (text "POST") []) tasks).
  reflexivity.
Defined.

(** C5, at the input where the code departs from it: the state reached from
    the start by one submit of three spaces holds the empty string as its
    fourth item, so the list was changed by appending a string that is
    empty. *)
Theorem C5_reachable_store_holds_empty_item :
  reachable (serve [post_request (text "   ")] tasks) /\
  serve [post_request (text "   ")] tasks = tasks ++ [[]] /\
  nth_error (serve [post_request (text "   ")] tasks) 3 = Some [].
Proof.
  split; [apply reachable_serve; constructor|].
  split; reflexivity.
Qed.

(** C6: before any request is handled the list holds the three seed values,
    in the order Learn Docker, Build a Web App, Containerize the App. *)
Theorem C6_seed_values_at_start :
  serve [] tasks
  = map of_string ["Learn Docker"; "Build a Web App"; "Containerize the App"]
  /\ reachable (serve [] tasks).
Proof. split; [reflexivity | constructor]. Qed.

(** C7: on a list with no items a retrieve answers with the page that has
    the placeholder entry, reading No tasks yet! Add one above., where the
    list entries would be; the list container is not left empty. *)
Theorem C7_empty_store_shows_placeholder :
  forall g : Request,
    method g = text "GET" ->
    todo_list g [] = (Some (Page (page_head ++ no_tasks_yet ++ page_tail)), [])
    /\ (exists a b,
           no_tasks_yet = a ++ of_string "No tasks yet! Add one above." ++ b)
    /\ get_html_template [] <> page_head ++ page_tail.
Proof.
  intros g G. rewrite (todo_list_GET _ _ G), get_html_template_empty.
  split; [reflexivity|]. split.
  - exists (firstn 50 no_tasks_yet), (skipn 78 no_tasks_yet). reflexivity.
  - intros E. apply app_inv_head in E.
    apply (f_equal (@List.length codepoint)) in E.
    rewrite length_app in E. vm_compute in E. discriminate E.
Qed.

Lemma C7_empty_store_shows_placeholder_witness :
  todo_list get_request []
  = (Some (Page (page_head ++ no_tasks_yet ++ page_tail)), [])
  /\ (exists a b,
         no_tasks_yet = a ++ of_string "No tasks yet! Add one above." ++ b)
  /\ get_html_template [] <> page_head ++ page_tail.
Proof.
  apply (C7_empty_store_shows_placeholder get_request). reflexivity.
Defined.

(** C8: handling a retrieve leaves the list as it was, and so does handling
    any number of retrieves in a row. *)
Theorem C8_retrieve_leaves_store_unchanged :
  forall (g : Request) (gs : list Request) (store : list str),
    method g = text "GET" ->
    Forall (fun g' => method g' = text "GET") gs ->
    snd (todo_list g store) = store /\ serve gs store = store.
Proof.
  intros g gs store G Gs. split.
  - now rewrite (todo_list_GET _ _ G).
  - induction Gs as [|g' gs G' _ IH]; [reflexivity|].
    change (serve (g' :: gs) store) with (serve gs (snd (todo_list g' store))).
    now rewrite (todo_list_GET _ _ G').
Qed.

Lemma C8_retrieve_leaves_store_unchanged_witness :
  snd (todo_list get_request tasks) = tasks /\
  serve [get_request; get_request] tasks = tasks.
Proof.
  apply (C8_retrieve_leaves_store_unchanged get_request).
  - reflexivity.
  - repeat constructor.
Defined.

(** C9: handling a submit leaves the list identical or appends exactly one
    item at its end, and every item that was in the list is still there at
    the same position. *)
Theorem C9_submit_appends_at_most_one :
  forall (r : Request) (store : list str),
    method r = text "POST" ->
    (snd (todo_list r store) = store \/
     exists x, snd (todo_list r store) = store ++ [x]) /\
    (forall i x, nth_error store i = Some x ->
                 nth_error (snd (todo_list r store)) i = Some x).
Proof.
  intros r store _.
  destruct (todo_list_store r store) as [S|[v [_ S]]]; rewrite S.
  - split; [now left | auto].
  - split; [right; now exists (strip v)|].
    intros i x H. rewrite nth_error_app1; [exact H|].
    apply nth_error_Some. congruence.
Qed.

Lemma C9_submit_appends_at_most_one_witness :
  (snd (todo_list (post_request (text "Write tests")) tasks) = tasks \/
   exists x,
     snd (todo_list (post_request (text "Write tests")) tasks) = tasks ++ [x])
  /\
  (forall i x, nth_error tasks i = Some x ->
               nth_error (snd (todo_list (post_request (text "Write tests")) tasks)) i
               = Some x).
Proof.
  apply (C9_submit_appends_at_most_one (post_request (text "Write tests")) tasks).
  reflexivity.
Defined.

(* ================================================================== *)
(** ** Further properties of the view *)

Lemma get_app (d1 d2 : MultiDict) (k : str) :
  get (d1 ++ d2) k
  = match get d1 k with Some v => Some v | None => get d2 k end.
Proof.
  induction d1 as [|[k' v'] d1 IH]; simpl; [reflexivity|].
  destruct (PyStr.eqb k' k); [reflexivity | exact IH].
Qed.

Lemma get_None (d : MultiDict) (k : str) :
  get d k = None <-> ~ In k (map fst d).
Proof.
  induction d as [|[k' v'] d IH]; simpl; [tauto|].
  destruct (PyStr.eqb k' k) eqn:E.
  - apply eqb_eq in E. split; [discriminate | intros H; exfalso; auto].
  - apply eqb_neq in E. rewrite IH. tauto.
Qed.

Lemma serve_cons (r : Request) (rs : list Request) (store : list str) :
  serve (r :: rs) store = serve rs (snd (todo_list r store)).
Proof. reflexivity. Qed.

Lemma todo_list_snd (r : Request) (store : list str) :
  snd (todo_list r store)
  = if accepted r then store ++ [strip (field r)] else store.
Proof.
  unfold todo_list, accepted, field.
  destruct (PyStr.eqb (method r) (text "POST")); [|reflexivity].
  destruct (get (form r) (text "new_task")) as [v|]; reflexivity.
Qed.

Lemma serve_accepted (rs : list Request) (store : list str) :
  serve rs store
  = store ++ map (fun r => strip (field r)) (filter accepted rs).
Proof.
  revert store; induction rs as [|r rs IH]; intros store.
  - simpl. now rewrite app_nil_r.
  - rewrite serve_cons, IH, todo_list_snd. cbn [filter].
    destruct (accepted r); [|reflexivity].
    cbn [map]. now rewrite <- app_assoc.
Qed.

Lemma serve_GETs (gs : list Request) (store : list str) :
  Forall (fun g => method g = text "GET") gs -> serve gs store = store.
Proof.
  induction 1 as [|g gs G _ IH]; [reflexivity|].
  now rewrite serve_cons, (todo_list_GET _ _ G).
Qed.

Lemma trimmed_strip (x : str) : trimmed x = true -> strip x = x.
Proof.
  intros T. symmetry. apply trim_of_strip. split; [|exact T].
  exists [], []. now rewrite app_nil_r.
Qed.

Lemma reachable_trimmed (store : list str) :
  reachable store -> Forall (fun x => trimmed x = true) store.
Proof.
  intros R. destruct (reachable_inv store R) as [rs ->].
  destruct (serve_extends rs tasks) as [added [-> F]].
  apply Forall_app. split; [|exact F].
  repeat constructor.
Qed.

(** X1: the list after any run of requests is the list before it followed
    by the stripped [new_task] value of each request that is a POST with a
    non-empty first [new_task] value, in the order the requests came; all
    other requests add nothing. *)
Theorem X1_store_after_any_requests :
  forall (rs : list Request) (store : list str),
    serve rs store
    = store ++ map (fun r => strip (field r)) (filter accepted rs).
Proof. exact serve_accepted. Qed.

(** X2: whatever requests are handled, the items that were in the list stay
    at the front of it in their order, and the list grows by at most one
    item a request. *)
Theorem X2_store_keeps_prefix_and_grows_slowly :
  forall (rs : list Request) (store : list str),
    firstn (List.length store) (serve rs store) = store /\
    (List.length store <= List.length (serve rs store))%nat /\
    (List.length (serve rs store) <= List.length store + List.length rs)%nat.
Proof.
  intros rs store. rewrite serve_accepted.
  rewrite firstn_app, Nat.sub_diag, firstn_all, firstn_O, app_nil_r.
  rewrite length_app, length_map.
  pose proof (filter_length_le accepted rs). repeat split; lia.
Qed.

(** X3: the view reads the first [new_task] field only: fields of other
    names before it, and any fields after it, a second [new_task] among
    them, change nothing in what the submit does. *)
Theorem X3_first_new_task_field_decides :
  forall (d1 d2 : MultiDict) (v : str) (store : list str),
    ~ In (text "new_task") (map fst d1) ->
    todo_list (mkRequest (text "POST") (d1 ++ (text "new_task", v) :: d2)) store
    = todo_list (post_request v) store.
Proof.
  intros d1 d2 v store H.
  rewrite !todo_list_POST by reflexivity.
  cbn [form post_request]. rewrite get_app, (proj2 (get_None _ _) H).
  cbn [get]. now rewrite eqb_refl.
Qed.

Lemma X3_first_new_task_field_decides_witness :
  todo_list
    (mkRequest (text "POST")
       ([(text "note", text "x")]
        ++ (text "new_task", text "Write tests")
        :: [(text "new_task", text "Deploy")]))
    tasks
  = todo_list (post_request (text "Write tests")) tasks.
Proof.
  apply (X3_first_new_task_field_decides
           [(text "note", text "x")] [(text "new_task", text "Deploy")]
           (text "Write tests") tasks).
  simpl. intros [H|[]]. vm_compute in H. discriminate H.
Defined.

(** X4: a POST whose form has no field named [new_task], or whose first
    [new_task] value is the empty string, is answered with the redirect and
    leaves the list as it was. *)
Theorem X4_submit_without_value_changes_nothing :
  forall (r : Request) (store : list str),
    method r = text "POST" ->
    ~ In (text "new_task") (map fst (form r)) \/
    get (form r) (text "new_task") = Some [] ->
    todo_list r store = (Some (Redirect 302 (text "/")), store).
Proof.
  intros r store M [H|H]; rewrite (todo_list_POST _ _ M).
  - now rewrite (proj2 (get_None _ _) H).
  - now rewrite H.
Qed.

Lemma X4_submit_without_value_changes_nothing_witness :
  todo_list (mkRequest (text "POST") [(text "New_Task", text "Write tests")])
            tasks
  = (Some (Redirect 302 (text "/")), tasks).
Proof.
  apply (X4_submit_without_value_changes_nothing
           (mkRequest (text "POST") [(text "New_Task", text "Write tests")])
           tasks).
  - reflexivity.
  - left. simpl. intros [H|[]]. vm_compute in H. discriminate H.
Defined.

(** X5: a submit appends the empty string exactly when its [new_task] value
    is not empty and is whitespace throughout. *)
Theorem X5_empty_item_stored_iff_blank_value :
  forall (r : Request) (store : list str) (v : str),
    submits v r ->
    (snd (todo_list r store) = store ++ [[]]
     <-> v <> [] /\ forallb isspace v = true).
Proof.
  intros r store v S. split.
  - intros E. destruct v as [|c v].
    + destruct S as [M G].
      rewrite (todo_list_POST _ _ M), G in E. cbn [snd truthy] in E.
      apply (f_equal (@List.length str)) in E.
      rewrite length_app in E. simpl in E. lia.
    + split; [discriminate|].
      rewrite (submit_truthy r store _ S) in E by discriminate.
      apply app_inv_head in E. injection E as E.
      now apply strip_blank.
  - intros [NE B]. now apply (submit_blank r store v).
Qed.

Lemma X5_empty_item_stored_iff_blank_value_witness :
  snd (todo_list (post_request [0x09; 0x20; 0xA0]) tasks) = tasks ++ [[]]
  <-> [0x09; 0x20; 0xA0] <> [] /\ forallb isspace [0x09; 0x20; 0xA0] = true.
Proof.
  apply (X5_empty_item_stored_iff_blank_value
           (post_request [0x09; 0x20; 0xA0]) tasks [0x09; 0x20; 0xA0]).
  split; reflexivity.
Defined.

(** X6: the view answers every request and never raises: with the redirect
    to [/] exactly when the method is the string POST, and otherwise, form
    fields or not, with the page of the list, which it leaves unchanged. *)
Theorem X6_response_by_method :
  forall (r : Request) (store : list str),
    (fst (todo_list r store) = Some (Redirect 302 (text "/"))
     <-> method r = text "POST") /\
    (method r <> text "POST" ->
     todo_list r store = (Some (Page (get_html_template store)), store)) /\
    fst (todo_list r store) <> None.
Proof.
  intros r store.
  destruct (PyStr.eqb (method r) (text "POST")) eqn:E.
  - apply eqb_eq in E. rewrite (todo_list_POST _ _ E). cbn [fst].
    repeat split; auto; try discriminate. intros NE. contradiction.
  - apply eqb_neq in E. rewrite (todo_list_other _ _ E). cbn [fst].
    repeat split; auto; try discriminate. intros H. contradiction.
Qed.

(** X11: after a submit that stores a value, any number of retrieves, such
    as following the redirect and reloading the page, add nothing; the same
    submit sent once more stores the value a second time. *)
Theorem X11_reload_adds_nothing_resubmit_adds_again :
  forall (r : Request) (v : str) (gs : list Request) (store : list str),
    submits v r ->
    v <> [] ->
    Forall (fun g => method g = text "GET") gs ->
    serve (r :: gs) store = store ++ [strip v] /\
    serve (r :: gs ++ [r]) store = store ++ [strip v; strip v].
Proof.
  intros r v gs store S NE G. split.
  - now rewrite serve_cons, (submit_truthy r store v S NE), serve_GETs.
  - rewrite serve_cons, serve_app, (submit_truthy r store v S NE).
    rewrite (serve_GETs _ _ G). simpl serve.
    rewrite (submit_truthy r _ v S NE), <- app_assoc. reflexivity.
Qed.

Lemma X11_reload_adds_nothing_resubmit_adds_again_witness :
  serve (post_request (text "Write tests") :: [get_request; get_request]) tasks
  = tasks ++ [strip (text "Write tests")] /\
  serve (post_request (text "Write tests")
         :: [get_request; get_request] ++ [post_request (text "Write tests")])
        tasks
  = tasks ++ [strip (text "Write tests"); strip (text "Write tests")].
Proof.
  apply (X11_reload_adds_nothing_resubmit_adds_again
           (post_request (text "Write tests")) (text "Write tests")
           [get_request; get_request] tasks).
  - split; reflexivity.
  - discriminate.
  - repeat constructor.
Defined.

(** X12: every item of a list the application can reach, seed or submitted,
    is unchanged by [strip]; submitting a non-empty item of the list again
    therefore appends an identical copy, the list holding no item once
    only. *)
Theorem X12_stored_items_resubmit_identically :
  forall (store : list str) (x : str),
    reachable store ->
    In x store ->
    strip x = x /\
    (x <> [] -> snd (todo_list (post_request x) store) = store ++ [x]).
Proof.
  intros store x R I.
  assert (E : strip x = x).
  { apply trimmed_strip.
    exact (proj1 (Forall_forall _ _) (reachable_trimmed store R) x I). }
  split; [exact E|]. intros NE.
  rewrite (submit_truthy (post_request x) store x); [now rewrite E| |exact NE].
  split; reflexivity.
Qed.

Lemma X12_stored_items_resubmit_identically_witness :
  strip (text "Learn Docker") = text "Learn Docker" /\
  (text "Learn Docker" <> [] ->
   snd (todo_list (post_request (text "Learn Docker")) tasks)
   = tasks ++ [text "Learn Docker"]).
Proof.
  apply (X12_stored_items_resubmit_identically tasks (text "Learn Docker")).
  - constructor.
  - left. reflexivity.
Defined.

(* ================================================================== *)
(** ** Further properties of the page *)

Lemma numbered_entries_app (l : list str) (x : str) :
  numbered_entries (l ++ [x])
  = numbered_entries l ++ numbered_entry (N.of_nat (List.length l + 1)) x.
Proof.
  unfold numbered_entries.
  rewrite length_app. cbn [List.length].
  rewrite seq_app, map_app, concat_app. cbn [seq map List.concat].
  rewrite app_nil_r, Nat.add_0_l, nth_middle. f_equal. f_equal.
  apply map_ext_in. intros k K. apply in_seq in K.
  rewrite app_nth1 by lia. reflexivity.
Qed.

Lemma in_concat_split (ls : list str) (e : str) :
  In e ls -> exists a b, List.concat ls = a ++ e ++ b.
Proof.
  intros I. apply in_split in I. destruct I as [l1 [l2 ->]].
  exists (List.concat l1), (List.concat l2).
  now rewrite concat_app.
Qed.

Lemma li_head_first : exists rest, li_head = 0x0A :: rest.
Proof. eexists. reflexivity. Qed.

Lemma no_tasks_yet_first : hd_error no_tasks_yet = Some 0x3C.
Proof. reflexivity. Qed.

(** X7: the page holds every item of the list exactly as it is stored,
    character for character: the generator escapes nothing. *)
Theorem X7_items_embedded_verbatim :
  forall (l : list str) (t : str),
    In t l -> occurs_in t (get_html_template l).
Proof.
  intros l t I.
  rewrite get_html_template_nonempty by (intros ->; exact I).
  destruct (In_nth l t [] I) as [k [K E]].
  assert (J : In (numbered_entry (N.of_nat (k + 1)) t)
                 (map (fun k => numbered_entry (N.of_nat (k + 1)) (nth k l []))
                      (seq 0 (List.length l)))).
  { apply in_map_iff. exists k. rewrite E. split; [reflexivity|].
    apply in_seq. lia. }
  destruct (in_concat_split _ _ J) as [a [b C]].
  unfold numbered_entries. rewrite C. unfold numbered_entry.
  exists (page_head ++ a ++ li_head ++ format_int (N.of_nat (k + 1)) ++ text ". "),
         (li_tail ++ b ++ page_tail).
  repeat rewrite <- app_assoc. reflexivity.
Qed.

Lemma X7_items_embedded_verbatim_witness :
  occurs_in (text "<script>alert(1)</script>")
            (get_html_template (tasks ++ [text "<script>alert(1)</script>"])).
Proof.
  apply (X7_items_embedded_verbatim
           (tasks ++ [text "<script>alert(1)</script>"])
           (text "<script>alert(1)</script>")).
  apply in_or_app. right. left. reflexivity.
Defined.

(** X8: the list cannot be read back from the page: one last item made of a
    text, the closing markup of an entry, the opening markup of the next
    with its number, and a second text gives the very page that the two
    texts give as two items. *)
Theorem X8_one_item_renders_as_two :
  forall (l : list str) (x y : str),
    get_html_template
      (l ++ [x ++ li_tail ++ li_head
               ++ format_int (N.of_nat (List.length l + 2)) ++ text ". " ++ y])
    = get_html_template (l ++ [x; y]).
Proof.
  intros l x y.
  rewrite !get_html_template_nonempty
    by (intros E; symmetry in E; exact (app_cons_not_nil _ _ _ E)).
  change (l ++ [x; y]) with (l ++ [x] ++ [y]).
  rewrite (app_assoc l [x] [y]), !numbered_entries_app.
  rewrite length_app. cbn [List.length].
  replace (List.length l + 1 + 1)%nat with (List.length l + 2)%nat by lia.
  unfold numbered_entry. repeat rewrite <- app_assoc. reflexivity.
Qed.

(** X9: the page with the placeholder is the page of the empty list and of
    no other list. *)
Theorem X9_placeholder_only_for_empty_list :
  forall l : list str,
    get_html_template l = page_head ++ no_tasks_yet ++ page_tail <-> l = [].
Proof.
  intros l. split; [|intros ->; reflexivity].
  destruct l as [|x l]; [reflexivity|]. intros E. exfalso.
  rewrite get_html_template_nonempty in E by discriminate.
  apply app_inv_head, app_inv_tail in E.
  unfold numbered_entries in E. cbn [List.length seq map List.concat] in E.
  unfold numbered_entry at 1 in E.
  destruct li_head_first as [rest R]. rewrite R in E.
  apply (f_equal (@hd_error codepoint)) in E.
  rewrite no_tasks_yet_first in E. cbn [app hd_error] in E.
  discriminate E.
Qed.

(** X10: appending an item leaves every entry of the page and its number as
    they were and adds, after them, one entry for the new item, numbered
    with the new length of the list. *)
Theorem X10_page_after_append :
  forall (l : list str) (x : str),
    get_html_template (l ++ [x])
    = page_head
      ++ numbered_entries l
      ++ numbered_entry (N.of_nat (List.length l + 1)) x
      ++ page_tail.
Proof.
  intros l x.
  rewrite get_html_template_nonempty
    by (intros E; symmetry in E; exact (app_cons_not_nil _ _ _ E)).
  rewrite numbered_entries_app, <- app_assoc. reflexivity.
Qed.
